(** * ResNet-34 notebook: residual unit and network builder

    A shallow embedding of [main.ipynb]: the [DefaultConv2D] partial, the
    [ResUnit] layer (its constructor and its [call] method) and the script
    that assembles the sequential model.

    Python integers are unbounded, so filter counts, strides and tensor
    dimensions are in [Z].  Every layer constructor call creates a new
    Python object; the embedding gives each object an identity (a natural
    number drawn from a counter threaded through construction by a state
    monad), so that the one activation object a [ResUnit] uses in two
    places is visibly one object.  The layers themselves (convolution,
    batch normalisation, ...) belong to the tensor library and are not
    part of the notebook: evaluation is written over an abstract engine. *)

From Stdlib Require Import ZArith List String Bool Lia Permutation.
From ExtLib Require Import Structures.Monad Structures.MonadState.
From ExtLib Require Import Data.Monads.StateMonad Data.Monads.OptionMonad.
Import ListNotations.
Import MonadNotation.
Local Open Scope string_scope.
Local Open Scope list_scope.
Local Open Scope Z_scope.
Local Open Scope monad_scope.

(** ** Layer configurations *)

(** Keyword arguments a call may pass to [tf.keras.layers.Conv2D]; [None]
    stands for a keyword that is not passed. *)
Record ConvKw : Type := mkConvKw {
  kernel_size : option Z;
  strides : option Z;
  padding : option string;
  kernel_initializer : option string;
  use_bias : option bool;
  input_shape : option (list Z)
}.

Definition no_kw : ConvKw := mkConvKw None None None None None None.

Definition or_else {A : Type} (call base : option A) : option A :=
  match call with
  | Some v => Some v
  | None => base
  end.

(** A [functools.partial] object calls its function with the keywords
    frozen in the partial updated by those of the call: a keyword of the
    call replaces the frozen one. *)
Definition partial_kw (base call : ConvKw) : ConvKw :=
  {| kernel_size := or_else (kernel_size call) (kernel_size base);
     strides := or_else (strides call) (strides base);
     padding := or_else (padding call) (padding base);
     kernel_initializer :=
       or_else (kernel_initializer call) (kernel_initializer base);
     use_bias := or_else (use_bias call) (use_bias base);
     input_shape := or_else (input_shape call) (input_shape base) |}.

(** The configuration a library layer is constructed with. *)
Inductive LayerCfg : Type :=
| Conv2D (filters : Z) (kw : ConvKw)
| BatchNormalization
| Activation (activation : string)
| MaxPool2D (pool_size pool_strides : Z) (pool_padding : string)
| GlobalAvgPool2D
| Flatten
| Dense (units : Z) (activation : string).

(** A constructed library layer: a Python object ([oid] is its identity)
    holding its configuration. *)
Record KLayer : Type := mkKLayer { oid : nat; cfg : LayerCfg }.

(** ** Construction *)

(** Calling a layer class allocates a fresh object. *)
Definition new (c : LayerCfg) : state nat KLayer :=
  n <- get ;;
  put (S n) ;;
  ret {| oid := n; cfg := c |}.

(** [DefaultConv2D = partial(tf.keras.layers.Conv2D, kernel_size=3,
    strides=1, padding="same", kernel_initializer="he_normal",
    use_bias=False)] *)
Definition DefaultConv2D_kw : ConvKw :=
  {| kernel_size := Some 3;
     strides := Some 1;
     padding := Some "same";
     kernel_initializer := Some "he_normal";
     use_bias := Some false;
     input_shape := None |}.

Definition DefaultConv2D (filters : Z) (call : ConvKw) : state nat KLayer :=
  new (Conv2D filters (partial_kw DefaultConv2D_kw call)).

(** [class ResUnit(tf.keras.layers.Layer)]: the three attributes set by
    [__init__]. *)
Record ResUnit : Type := mkResUnit {
  activation : KLayer;
  main_layers : list KLayer;
  skip_layers : list KLayer
}.

(** [ResUnit.__init__(self, filters, strides=1, activation="relu")].  The
    list literal evaluates its elements left to right; its third element
    is the object already stored in [self.activation].  The remaining
    keyword arguments go to the base class and play no part here. *)
Definition ResUnit_init (filters strides : Z) (activation : string)
  : state nat ResUnit :=
  act <- new (Activation activation) ;;
  conv1 <- DefaultConv2D filters
             {| kernel_size := None; strides := Some strides;
                padding := None; kernel_initializer := None;
                use_bias := None; input_shape := None |} ;;
  bn1 <- new BatchNormalization ;;
  conv2 <- DefaultConv2D filters no_kw ;;
  bn2 <- new BatchNormalization ;;
  skip <- (if strides >? 1
           then
             sconv <- DefaultConv2D filters
                        {| kernel_size := Some 1; strides := Some strides;
                           padding := None; kernel_initializer := None;
                           use_bias := None; input_shape := None |} ;;
             sbn <- new BatchNormalization ;;
             ret [sconv; sbn]
           else ret []) ;;
  ret {| activation := act;
         main_layers := [conv1; bn1; act; conv2; bn2];
         skip_layers := skip |}.

(** An entry of the sequential model: a library layer or a residual unit. *)
Inductive MLayer : Type :=
| Keras (l : KLayer)
| Res (u : ResUnit).

(** The list literal passed to [tf.keras.Sequential]. *)
Definition stem : state nat (list MLayer) :=
  conv <- DefaultConv2D 64
            {| kernel_size := Some 7; strides := Some 2;
               padding := None; kernel_initializer := None;
               use_bias := None; input_shape := Some [224; 224; 3] |} ;;
  bn <- new BatchNormalization ;;
  act <- new (Activation "relu") ;;
  pool <- new (MaxPool2D 3 2 "same") ;;
  ret [Keras conv; Keras bn; Keras act; Keras pool].

(** [filter_configuration = [64] * 3 + [128] * 4 + [256] * 6 + [512] * 3] *)
Definition filter_configuration : list Z :=
  repeat 64 3 ++ repeat 128 4 ++ repeat 256 6 ++ repeat 512 3.

(** The stride chosen in the loop body:
    [strides = 1 if filters == previous_filters else 2]. *)
Definition loop_strides (filters previous_filters : Z) : Z :=
  if filters =? previous_filters then 1 else 2.

(** [for filters in filter_configuration: ...]: [model.add] appends to the
    model's layer list, and [previous_filters] is carried to the next
    iteration. *)
Fixpoint add_units (fc : list Z) (previous_filters : Z) (model : list MLayer)
  : state nat (list MLayer) :=
  match fc with
  | [] => ret model
  | filters :: rest =>
      let strides := loop_strides filters previous_filters in
      u <- ResUnit_init filters strides "relu" ;;
      add_units rest filters (model ++ [Res u])
  end.

(** The three [model.add] calls that close the script. *)
Definition add_head (model : list MLayer) : state nat (list MLayer) :=
  gap <- new GlobalAvgPool2D ;;
  let model := model ++ [Keras gap] in
  fl <- new Flatten ;;
  let model := model ++ [Keras fl] in
  dense <- new (Dense 10 "softmax") ;;
  ret (model ++ [Keras dense]).

(** The second code cell, for a given schedule and initial
    [previous_filters]. *)
Definition build (fc : list Z) (previous_filters : Z)
  : state nat (list MLayer) :=
  model <- stem ;;
  model <- add_units fc previous_filters model ;;
  add_head model.

(** The notebook's [model]: the cell run on its own constants, in a
    process that has allocated no layer yet. *)
Definition model : list MLayer :=
  evalState (build filter_configuration 64) 0%nat.

(** ** Evaluation *)

(** What the notebook consumes from the tensor library: applying a
    constructed layer (its configuration and its current parameter
    values) to a tensor, and the elementwise [+] of two tensors.  Either
    may raise; an exception is [None]. *)
Class Engine (Tensor Weights : Type) : Type := {
  apply_layer : LayerCfg -> Weights -> Tensor -> option Tensor;
  tensor_add : Tensor -> Tensor -> option Tensor
}.

Section Evaluation.

Context {Tensor Weights : Type} {E : Engine Tensor Weights}.

(** The parameter values each layer object currently owns. *)
Variable weights : nat -> Weights.

(** [layer(x)] *)
Definition run_layer (l : KLayer) (x : Tensor) : option Tensor :=
  apply_layer (cfg l) (weights (oid l)) x.

(** [out = inputs; for layer in layers: out = layer(out)] *)
Fixpoint run_layers (layers : list KLayer) (out : Tensor) : option Tensor :=
  match layers with
  | [] => ret out
  | layer :: rest => out' <- run_layer layer out ;; run_layers rest out'
  end.

(** [ResUnit.call(self, inputs)] *)
Definition call (self : ResUnit) (inputs : Tensor) : option Tensor :=
  main_output <- run_layers (main_layers self) inputs ;;
  skip_output <- run_layers (skip_layers self) inputs ;;
  sum <- tensor_add main_output skip_output ;;
  run_layer (activation self) sum.

(** Applying the sequential model: its layers in order, a residual unit
    through its [call]. *)
Definition run_mlayer (l : MLayer) (x : Tensor) : option Tensor :=
  match l with
  | Keras k => run_layer k x
  | Res u => call u x
  end.

Fixpoint run_model (layers : list MLayer) (x : Tensor) : option Tensor :=
  match layers with
  | [] => ret x
  | layer :: rest => x' <- run_mlayer layer x ;; run_model rest x'
  end.

End Evaluation.

(** ** A shape-level reading of the tensor library

    The library is outside the notebook.  For the statements that are
    about tensor shapes, its layers are read at the level of shapes, by
    the rules the library documents: "same" padding gives
    ceil(input / stride) in each spatial dimension, "valid" padding gives
    floor((input - kernel) / stride) + 1, normalisation and activation
    keep the shape, global average pooling keeps batch and channels,
    flatten keeps the batch dimension, a dense layer replaces the last
    dimension.  Layers carry no parameter values at this level. *)

Definition Shape : Type := list Z.

Definition ceil_div (a b : Z) : Z := - ((- a) / b).

Definition window_out (pad : string) (size k s : Z) : option Z :=
  if String.eqb pad "same" then Some (ceil_div size s)
  else if String.eqb pad "valid" then Some ((size - k) / s + 1)
  else None.

Definition window_shape (pad : string) (k s : Z) (channels : option Z)
    (x : Shape) : option Shape :=
  match x with
  | [n; h; w; c] =>
      if 0 <? s then
        h' <- window_out pad h k s ;;
        w' <- window_out pad w k s ;;
        ret [n; h'; w'; match channels with Some f => f | None => c end]
      else None
  | _ => None
  end.

Definition option_default {A : Type} (d : A) (o : option A) : A :=
  match o with
  | Some v => v
  | None => d
  end.

Definition shape_apply (c : LayerCfg) (_ : unit) (x : Shape) : option Shape :=
  match c with
  | Conv2D filters kw =>
      match kernel_size kw with
      | Some k =>
          window_shape (option_default "valid" (padding kw)) k
            (option_default 1 (strides kw)) (Some filters) x
      | None => None
      end
  | BatchNormalization => Some x
  | Activation _ => Some x
  | MaxPool2D k s pad => window_shape pad k s None x
  | GlobalAvgPool2D =>
      match x with
      | [n; _; _; c] => Some [n; c]
      | _ => None
      end
  | Flatten =>
      match x with
      | n :: rest => Some [n; fold_right Z.mul 1 rest]
      | [] => None
      end
  | Dense units _ =>
      match rev x with
      | _ :: front => Some (rev (units :: front))
      | [] => None
      end
  end.

(** An addition that accepts only operands of one and the same shape. *)
Definition strict_add (a b : Shape) : option Shape :=
  if list_eq_dec Z.eq_dec a b then Some a else None.

(** The library's [+] broadcasts: shapes are aligned at their last
    dimension, and two dimensions are compatible when they are equal or
    one of them is 1. *)
Definition broadcast_dim (x y : Z) : option Z :=
  if x =? y then Some x
  else if x =? 1 then Some y
  else if y =? 1 then Some x
  else None.

Fixpoint broadcast_rev (a b : Shape) : option Shape :=
  match a, b with
  | [], _ => Some b
  | _, [] => Some a
  | x :: a', y :: b' =>
      d <- broadcast_dim x y ;;
      r <- broadcast_rev a' b' ;;
      ret (d :: r)
  end.

Definition broadcast_add (a b : Shape) : option Shape :=
  r <- broadcast_rev (rev a) (rev b) ;; ret (rev r).

Definition shape_engine (add : Shape -> Shape -> option Shape)
  : Engine Shape unit :=
  {| apply_layer := shape_apply; tensor_add := add |}.

Definition no_weights (_ : nat) : unit := tt.

(** Shape of the model's output on an input of the given shape. *)
Definition model_shape (add : Shape -> Shape -> option Shape)
    (layers : list MLayer) (x : Shape) : option Shape :=
  run_model (E := shape_engine add) no_weights layers x.

(** ** Observations on constructed objects *)

(** The residual units among the model's layers, in order. *)
Fixpoint units (layers : list MLayer) : list ResUnit :=
  match layers with
  | [] => []
  | Res u :: rest => u :: units rest
  | Keras _ :: rest => units rest
  end.

(** The [filters] and [strides] arguments a unit's first convolution was
    constructed with. *)
Definition unit_filters (u : ResUnit) : option Z :=
  match main_layers u with
  | {| cfg := Conv2D filters _ |} :: _ => Some filters
  | _ => None
  end.

Definition unit_strides (u : ResUnit) : option Z :=
  match main_layers u with
  | {| cfg := Conv2D _ kw |} :: _ => strides kw
  | _ => None
  end.

(** The keywords that reach [Conv2D] from a [DefaultConv2D] call that
    overrides at most kernel size and strides. *)
Definition conv_kw (k s : Z) : ConvKw :=
  {| kernel_size := Some k;
     strides := Some s;
     padding := Some "same";
     kernel_initializer := Some "he_normal";
     use_bias := Some false;
     input_shape := None |}.

(** ** The builder's loop, taken apart *)

(** The units the loop constructs, apart from the model they are added
    to. *)
Fixpoint loop_units (fc : list Z) (previous_filters : Z)
  : state nat (list ResUnit) :=
  match fc with
  | [] => ret []
  | filters :: rest =>
      u <- ResUnit_init filters (loop_strides filters previous_filters) "relu" ;;
      us <- loop_units rest filters ;;
      ret (u :: us)
  end.

(** The strides the loop derives from a schedule. *)
Fixpoint schedule_strides (fc : list Z) (previous_filters : Z) : list Z :=
  match fc with
  | [] => []
  | filters :: rest =>
      loop_strides filters previous_filters :: schedule_strides rest filters
  end.

(** The four stem layers and the three head layers, as allocated from a
    given counter value. *)
Definition stem_layers (n : nat) : list MLayer :=
  [Keras (mkKLayer n
            (Conv2D 64
               {| kernel_size := Some 7; strides := Some 2;
                  padding := Some "same";
                  kernel_initializer := Some "he_normal";
                  use_bias := Some false;
                  input_shape := Some [224; 224; 3] |}));
   Keras (mkKLayer (1 + n) BatchNormalization);
   Keras (mkKLayer (2 + n) (Activation "relu"));
   Keras (mkKLayer (3 + n) (MaxPool2D 3 2 "same"))].

Definition head_layers (n : nat) : list MLayer :=
  [Keras (mkKLayer n GlobalAvgPool2D);
   Keras (mkKLayer (1 + n) Flatten);
   Keras (mkKLayer (2 + n) (Dense 10 "softmax"))].

(** Spatial size after the units of a schedule. *)
Definition size_after (fc : list Z) (previous_filters : Z) (size : Z) : Z :=
  fold_left ceil_div (schedule_strides fc previous_filters) size.

(** ** Rejection of a mismatching input *)

(** The reading of "a mismatching configuration is rejected" in this
    embedding: the constructor has no failure path and no channel
    argument, so rejection can only show as an evaluation that returns no
    tensor. *)
Definition mismatch_rejected (add : Shape -> Shape -> option Shape) : Prop :=
  forall (filters : Z) (act : string) (k : nat) (n h w c : Z),
    c <> filters ->
    call (E := shape_engine add) no_weights
      (evalState (ResUnit_init filters 1 act) k) [n; h; w; c] = None.

(** ** A small numeric engine

    One number stands for a tensor and one number for a layer's parameter
    values: a convolution scales its input, a normalisation shifts it,
    the activation is the rectifier.  It serves to run the general
    statements on concrete values. *)

Definition scalar_apply (c : LayerCfg) (p : Z) (x : Z) : option Z :=
  match c with
  | Conv2D _ _ => Some (p * x)
  | BatchNormalization => Some (x + p)
  | Activation _ => Some (Z.max 0 x)
  | _ => None
  end.

Definition scalar_engine : Engine Z Z :=
  {| apply_layer := scalar_apply; tensor_add := fun a b => Some (a + b) |}.

(** Parameter values for a unit allocated from 0, and the same values
    for a unit allocated from 10. *)
Definition weights_at_0 (k : nat) : Z := Z.of_nat k + 1.

Definition weights_at_10 (k : nat) : Z := Z.of_nat (k - 10) + 1.

(** ** Further observations on models *)

(** The layer objects in a unit's two lists, main path first (the
    [activation] attribute of a constructed unit is the third of them). *)
Definition unit_layers (u : ResUnit) : list KLayer :=
  main_layers u ++ skip_layers u.

(** Every layer occurrence of a model, residual units opened up. *)
Definition model_layers (layers : list MLayer) : list KLayer :=
  flat_map (fun l => match l with
                     | Keras k => [k]
                     | Res u => unit_layers u
                     end) layers.

(** The object identities evaluation reads parameter values at. *)
Definition unit_oids (u : ResUnit) : list nat :=
  oid (activation u) :: map oid (unit_layers u).

Definition model_oids (layers : list MLayer) : list nat :=
  flat_map (fun l => match l with
                     | Keras k => [oid k]
                     | Res u => unit_oids u
                     end) layers.

(** Number of layer objects one constructor call allocates, and the
    number the loop allocates over a schedule. *)
Definition unit_objects (stride : Z) : nat := if stride >? 1 then 7 else 5.

Definition loop_objects (fc : list Z) (previous_filters : Z) : nat :=
  list_sum (map unit_objects (schedule_strides fc previous_filters)).

(** A convolution configured without bias, with "same" padding and the
    "he_normal" initialiser; any other layer passes. *)
Definition conv_template (c : LayerCfg) : bool :=
  match c with
  | Conv2D _ kw =>
      match use_bias kw, padding kw, kernel_initializer kw with
      | Some false, Some p, Some i =>
          String.eqb p "same" && String.eqb i "he_normal"
      | _, _, _ => false
      end
  | _ => true
  end.

(** In a layer list, every convolution is directly followed by a batch
    normalisation. *)
Fixpoint conv_then_norm (l : list LayerCfg) : bool :=
  match l with
  | [] => true
  | Conv2D _ _ :: rest =>
      match rest with
      | BatchNormalization :: _ => conv_then_norm rest
      | _ => false
      end
  | _ :: rest => conv_then_norm rest
  end.

(** The same for a model: in its own sequence and inside each unit. *)
Fixpoint model_conv_then_norm (layers : list MLayer) : bool :=
  match layers with
  | [] => true
  | Keras {| cfg := Conv2D _ _ |} :: rest =>
      match rest with
      | Keras {| cfg := BatchNormalization |} :: _ => model_conv_then_norm rest
      | _ => false
      end
  | Keras _ :: rest => model_conv_then_norm rest
  | Res u :: rest =>
      conv_then_norm (map cfg (main_layers u))
      && conv_then_norm (map cfg (skip_layers u))
      && model_conv_then_norm rest
  end.

(** A model whose objects were allocated [d] steps later. *)
Definition shift_layer (d : nat) (l : KLayer) : KLayer :=
  {| oid := (oid l + d)%nat; cfg := cfg l |}.

Definition shift_unit (d : nat) (u : ResUnit) : ResUnit :=
  {| activation := shift_layer d (activation u);
     main_layers := map (shift_layer d) (main_layers u);
     skip_layers := map (shift_layer d) (skip_layers u) |}.

Definition shift_mlayer (d : nat) (l : MLayer) : MLayer :=
  match l with
  | Keras k => Keras (shift_layer d k)
  | Res u => Res (shift_unit d u)
  end.

(** A numeric engine that accepts every layer of the model: pooling and
    flattening leave the number as it is, a dense layer scales it. *)
Definition affine_apply (c : LayerCfg) (p : Z) (x : Z) : option Z :=
  match c with
  | Conv2D _ _ => Some (p * x)
  | Dense _ _ => Some (p * x)
  | BatchNormalization => Some (x + p)
  | Activation _ => Some (Z.max 0 x)
  | MaxPool2D _ _ _ => Some x
  | GlobalAvgPool2D => Some x
  | Flatten => Some x
  end.

Definition affine_engine : Engine Z Z :=
  {| apply_layer := affine_apply; tensor_add := fun a b => Some (a + b) |}.

(** * Properties of the constructor *)

(** The constructor allocates the activation first, then the four other
    main-path layers, then the two skip-path layers when there are any. *)
Lemma ResUnit_init_run (filters strides : Z) (act : string) (n : nat) :
  runState (ResUnit_init filters strides act) n =
  ({| activation := mkKLayer n (Activation act);
      main_layers :=
        [mkKLayer (1 + n) (Conv2D filters (conv_kw 3 strides));
         mkKLayer (2 + n) BatchNormalization;
         mkKLayer n (Activation act);
         mkKLayer (3 + n) (Conv2D filters (conv_kw 3 1));
         mkKLayer (4 + n) BatchNormalization];
      skip_layers :=
        if strides >? 1
        then [mkKLayer (5 + n) (Conv2D filters (conv_kw 1 strides));
              mkKLayer (6 + n) BatchNormalization]
        else [] |},
   ((if strides >? 1 then 7 else 5) + n)%nat).
Proof.
  unfold ResUnit_init.
  destruct (strides >? 1); reflexivity.
Qed.

Lemma ResUnit_init_eval (filters strides : Z) (act : string) (n : nat) :
  evalState (ResUnit_init filters strides act) n =
  fst (runState (ResUnit_init filters strides act) n).
Proof. reflexivity. Qed.

Ltac unit_built :=
  cbv zeta; rewrite ?ResUnit_init_eval, ?ResUnit_init_run; cbn [fst snd
    activation main_layers skip_layers].

(** C5.  Whatever [filters] and [strides] are, the constructor builds the
    main path from the fixed template, in this order: a convolution with
    kernel size 3, the given stride, "same" padding, the "he_normal"
    initialiser and no bias; a normalisation layer; the unit's shared
    activation object; a second convolution of the same template at
    stride 1; a second normalisation layer. *)
Theorem main_layers_template (filters strides : Z) (act : string) (n : nat) :
  let self := evalState (ResUnit_init filters strides act) n in
  activation self = mkKLayer n (Activation act) /\
  main_layers self =
    [mkKLayer (1 + n)
       (Conv2D filters
          {| kernel_size := Some 3; strides := Some strides;
             padding := Some "same"; kernel_initializer := Some "he_normal";
             use_bias := Some false; input_shape := None |});
     mkKLayer (2 + n) BatchNormalization;
     activation self;
     mkKLayer (3 + n)
       (Conv2D filters
          {| kernel_size := Some 3; strides := Some 1;
             padding := Some "same"; kernel_initializer := Some "he_normal";
             use_bias := Some false; input_shape := None |});
     mkKLayer (4 + n) BatchNormalization].
Proof.
  unit_built. split; reflexivity.
Qed.

(** C3.  Whatever [filters] and [strides] are, the skip path the
    constructor builds is non-empty exactly when [strides > 1]; it is then
    one 1x1 convolution at the same stride and filter count, without
    bias, followed by a normalisation layer, and it is the empty sequence
    otherwise (in particular for [strides = 1]). *)
Theorem skip_layers_iff_strides (filters strides : Z) (act : string) (n : nat) :
  let self := evalState (ResUnit_init filters strides act) n in
  skip_layers self =
    (if strides >? 1
     then [mkKLayer (5 + n)
             (Conv2D filters
                {| kernel_size := Some 1; strides := Some strides;
                   padding := Some "same";
                   kernel_initializer := Some "he_normal";
                   use_bias := Some false; input_shape := None |});
           mkKLayer (6 + n) BatchNormalization]
     else []) /\
  (skip_layers self <> [] <-> strides > 1) /\
  (skip_layers self = [] <-> strides <= 1).
Proof.
  unit_built. split; [reflexivity|].
  destruct (Z.gtb_spec strides 1); split; split; intros; try lia;
    try congruence; try discriminate.
Qed.

(** * Properties of the builder *)

Lemma runState_bind {S A B : Type} (c : state S A) (k : A -> state S B) (s : S) :
  runState (bind c k) s = runState (k (fst (runState c s))) (snd (runState c s)).
Proof. cbn. destruct (runState c s); reflexivity. Qed.

Lemma runState_ret {S A : Type} (a : A) (s : S) :
  runState (ret a : state S A) s = (a, s).
Proof. reflexivity. Qed.

Lemma add_units_run (fc : list Z) :
  forall (previous_filters : Z) (m : list MLayer) (n : nat),
    runState (add_units fc previous_filters m) n =
    (m ++ map Res (fst (runState (loop_units fc previous_filters) n)),
     snd (runState (loop_units fc previous_filters) n)).
Proof.
  induction fc as [|filters rest IH]; intros previous_filters m n.
  - cbn. now rewrite app_nil_r.
  - cbn [add_units loop_units]. cbv zeta.
    rewrite !runState_bind, IH, ?runState_bind, ?runState_ret.
    cbn [fst snd map]. now rewrite <- app_assoc.
Qed.

Lemma loop_units_cons (filters : Z) (rest : list Z) (previous_filters : Z)
    (n : nat) :
  let r := runState
             (ResUnit_init filters (loop_strides filters previous_filters)
                "relu") n in
  runState (loop_units (filters :: rest) previous_filters) n =
  (fst r :: fst (runState (loop_units rest filters) (snd r)),
   snd (runState (loop_units rest filters) (snd r))).
Proof.
  cbv zeta. cbn [loop_units].
  now rewrite !runState_bind, runState_ret.
Qed.

(** A property of every constructor result holds of every unit of the
    loop. *)
Lemma loop_units_Forall (P : ResUnit -> Prop) :
  (forall filters strides act n,
      P (fst (runState (ResUnit_init filters strides act) n))) ->
  forall fc previous_filters n,
    Forall P (fst (runState (loop_units fc previous_filters) n)).
Proof.
  intros HP fc.
  induction fc as [|filters rest IH]; intros previous_filters n.
  - constructor.
  - rewrite loop_units_cons. cbn [fst]. constructor; [apply HP | apply IH].
Qed.

Lemma loop_units_filters (fc : list Z) :
  forall previous_filters n,
    map unit_filters (fst (runState (loop_units fc previous_filters) n)) =
    map Some fc.
Proof.
  induction fc as [|filters rest IH]; intros previous_filters n.
  - reflexivity.
  - rewrite loop_units_cons. cbn [fst map]. rewrite IH.
    now rewrite ResUnit_init_run.
Qed.

Lemma loop_units_strides (fc : list Z) :
  forall previous_filters n,
    map unit_strides (fst (runState (loop_units fc previous_filters) n)) =
    map Some (schedule_strides fc previous_filters).
Proof.
  induction fc as [|filters rest IH]; intros previous_filters n.
  - reflexivity.
  - rewrite loop_units_cons. cbn [fst map schedule_strides]. rewrite IH.
    now rewrite ResUnit_init_run.
Qed.

Lemma units_app (a b : list MLayer) : units (a ++ b) = units a ++ units b.
Proof.
  induction a as [|[k|u] a IH]; cbn; [reflexivity | assumption | now f_equal].
Qed.

Lemma units_map_Res (us : list ResUnit) : units (map Res us) = us.
Proof. induction us as [|u us IH]; cbn; [reflexivity | now f_equal]. Qed.

Lemma build_run (fc : list Z) (previous_filters : Z) (n : nat) :
  let r := runState (loop_units fc previous_filters) (4 + n)%nat in
  runState (build fc previous_filters) n =
  (stem_layers n ++ map Res (fst r) ++ head_layers (snd r), (3 + snd r)%nat).
Proof.
  cbv zeta. unfold build.
  rewrite !runState_bind, add_units_run. cbn [fst snd].
  unfold add_head, stem_layers, head_layers. cbn.
  now rewrite <- !app_assoc.
Qed.

Lemma build_eval (fc : list Z) (previous_filters : Z) (n : nat) :
  evalState (build fc previous_filters) n =
  fst (runState (build fc previous_filters) n).
Proof. reflexivity. Qed.

(** C4.  Every unit the constructor produces has exactly five main-path
    layers and either no or exactly two skip-path layers, and so has every
    unit of a model the builder has assembled: nothing after the
    constructor assigns to the two lists ([call] only reads them). *)
Theorem layer_counts (filters strides : Z) (act : string) (n : nat)
    (fc : list Z) (previous_filters : Z) (n0 : nat) :
  let counts u :=
    List.length (main_layers u) = 5%nat /\
    (List.length (skip_layers u) = 0%nat \/
     List.length (skip_layers u) = 2%nat) in
  counts (evalState (ResUnit_init filters strides act) n) /\
  Forall counts (units (evalState (build fc previous_filters) n0)).
Proof.
  cbv zeta.
  assert (H : forall f s a k,
             List.length (main_layers (fst (runState (ResUnit_init f s a) k)))
               = 5%nat /\
             (List.length
                (skip_layers (fst (runState (ResUnit_init f s a) k))) = 0%nat \/
              List.length
                (skip_layers (fst (runState (ResUnit_init f s a) k))) = 2%nat)).
  { intros f s a k. rewrite ResUnit_init_run. cbn [fst main_layers skip_layers].
    split; [reflexivity|].
    destruct (s >? 1); [right | left]; reflexivity. }
  split.
  - apply H.
  - rewrite build_eval, build_run. cbn [fst].
    rewrite !units_app, units_map_Res. cbn [units stem_layers head_layers app].
    rewrite app_nil_r.
    apply (loop_units_Forall _ H).
Qed.

(** C6.  The builder emits, in this order: the stem (a convolution with
    kernel 7, stride 2, "same" padding, no bias and input shape
    224x224x3; a normalisation; an activation; a max-pool with window 3,
    stride 2, "same" padding); one residual unit per schedule entry, in
    schedule order; the head (global average pooling, flatten, a dense
    layer with softmax). *)
Theorem build_layer_order (fc : list Z) (previous_filters : Z) (n : nat) :
  exists (us : list ResUnit) (n' : nat),
    evalState (build fc previous_filters) n =
      [Keras (mkKLayer n
                (Conv2D 64
                   {| kernel_size := Some 7; strides := Some 2;
                      padding := Some "same";
                      kernel_initializer := Some "he_normal";
                      use_bias := Some false;
                      input_shape := Some [224; 224; 3] |}));
       Keras (mkKLayer (1 + n) BatchNormalization);
       Keras (mkKLayer (2 + n) (Activation "relu"));
       Keras (mkKLayer (3 + n) (MaxPool2D 3 2 "same"))]
      ++ map Res us
      ++ [Keras (mkKLayer n' GlobalAvgPool2D);
          Keras (mkKLayer (1 + n') Flatten);
          Keras (mkKLayer (2 + n') (Dense 10 "softmax"))] /\
    map unit_filters us = map Some fc /\
    map unit_strides us = map Some (schedule_strides fc previous_filters) /\
    List.length us = List.length fc.
Proof.
  exists (fst (runState (loop_units fc previous_filters) (4 + n)%nat)).
  exists (snd (runState (loop_units fc previous_filters) (4 + n)%nat)).
  rewrite build_eval, build_run. cbn [fst].
  split; [reflexivity|].
  split; [apply loop_units_filters|].
  split; [apply loop_units_strides|].
  rewrite <- (length_map unit_filters), loop_units_filters.
  apply length_map.
Qed.

(** C10.  Whatever the schedule and the initial [previous_filters], the
    last layer of the model is a dense layer with 10 units and softmax:
    the class count is the constant 10 of the script. *)
Theorem head_has_ten_classes (fc : list Z) (previous_filters : Z) (n : nat) :
  exists (front : list MLayer) (dense : KLayer),
    evalState (build fc previous_filters) n = front ++ [Keras dense] /\
    cfg dense = Dense 10 "softmax".
Proof.
  rewrite build_eval, build_run. cbn [fst].
  set (r := runState (loop_units fc previous_filters) (4 + n)%nat).
  exists (stem_layers n ++ map Res (fst r)
          ++ [Keras (mkKLayer (snd r) GlobalAvgPool2D);
              Keras (mkKLayer (1 + snd r) Flatten)]).
  exists (mkKLayer (2 + snd r) (Dense 10 "softmax")).
  split; [|reflexivity].
  unfold head_layers. now rewrite <- !app_assoc.
Qed.

(** C1.  For the notebook's schedule and [previous_filters = 64] the loop
    derives the strides 1,1,1,2,1,1,1,2,1,1,1,1,1,2,1,1, and these are the
    strides the sixteen units of the model were constructed with; the
    first unit has stride 1. *)
Theorem canonical_strides :
  filter_configuration =
    [64; 64; 64; 128; 128; 128; 128; 256; 256; 256; 256; 256; 256;
     512; 512; 512] /\
  schedule_strides filter_configuration 64 =
    [1; 1; 1; 2; 1; 1; 1; 2; 1; 1; 1; 1; 1; 2; 1; 1] /\
  map unit_strides (units model) =
    map Some [1; 1; 1; 2; 1; 1; 1; 2; 1; 1; 1; 1; 1; 2; 1; 1] /\
  List.length (units model) = 16%nat /\
  option_map unit_strides (hd_error (units model)) = Some (Some 1).
Proof.
  repeat split; vm_compute; reflexivity.
Qed.

(** * Properties of evaluation *)

Section UnitEvaluation.

Context {Tensor Weights : Type} {E : Engine Tensor Weights}.

(** C2.  For every input [x], evaluating a constructed unit returns
    activation(main(x) + skip(x)): the main path applies the unit's five
    layers in sequence to [x], the third being the unit's own activation
    object; the skip path applies its two layers to the same [x] when
    [strides > 1] and is [x] itself otherwise; the two results are added,
    and the sum goes through the same activation object once more. *)
Theorem call_is_activation_of_sum (weights : nat -> Weights)
    (filters strides : Z) (act : string) (n : nat) (x : Tensor) :
  let self := evalState (ResUnit_init filters strides act) n in
  let main i := run_layer weights (nth i (main_layers self) (activation self)) in
  let skip i := run_layer weights (nth i (skip_layers self) (activation self)) in
  let main_path inputs :=
    x1 <- main 0%nat inputs ;;
    x2 <- main 1%nat x1 ;;
    x3 <- run_layer weights (activation self) x2 ;;
    x4 <- main 3%nat x3 ;;
    main 4%nat x4 in
  let skip_path inputs :=
    if strides >? 1
    then y1 <- skip 0%nat inputs ;; skip 1%nat y1
    else ret inputs in
  List.length (main_layers self) = 5%nat /\
  nth 2 (main_layers self) (activation self) = activation self /\
  List.length (skip_layers self) = (if strides >? 1 then 2 else 0)%nat /\
  call weights self x =
    (main_output <- main_path x ;;
     skip_output <- skip_path x ;;
     sum <- tensor_add main_output skip_output ;;
     run_layer weights (activation self) sum).
Proof.
  unit_built.
  split; [reflexivity|]. split; [reflexivity|].
  split; [destruct (strides >? 1); reflexivity|].
  unfold call. cbn [main_layers skip_layers activation].
  destruct (strides >? 1); cbn;
    repeat match goal with
           | |- context [match run_layer ?w ?l ?t with _ => _ end] =>
               destruct (run_layer w l t); cbn
           end; reflexivity.
Qed.

(** C9.  Two units constructed independently (at any two points of the
    allocation order) with the same [filters], [strides] and [activation],
    whose layers hold the same parameter values position by position
    (seven layer objects when [strides > 1], five otherwise), return the
    same result on the same input. *)
Theorem two_run_equality (weights1 weights2 : nat -> Weights)
    (filters strides : Z) (act : string) (n1 n2 : nat) (x : Tensor) :
  (forall k : nat,
      (k < if strides >? 1 then 7 else 5)%nat ->
      weights1 (k + n1)%nat = weights2 (k + n2)%nat) ->
  call weights1 (evalState (ResUnit_init filters strides act) n1) x =
  call weights2 (evalState (ResUnit_init filters strides act) n2) x.
Proof.
  intros Hw. unit_built.
  unfold call.
  cbn [main_layers skip_layers activation run_layers].
  unfold run_layer. cbn [oid cfg].
  destruct (strides >? 1).
  - assert (H0 : weights1 n1 = weights2 n2) by (apply (Hw 0%nat); lia).
    rewrite H0, (Hw 1%nat), (Hw 2%nat), (Hw 3%nat), (Hw 4%nat) by lia.
    cbn [run_layers]. unfold run_layer. cbn [oid cfg].
    rewrite (Hw 5%nat), (Hw 6%nat) by lia. reflexivity.
  - assert (H0 : weights1 n1 = weights2 n2) by (apply (Hw 0%nat); lia).
    rewrite H0, (Hw 1%nat), (Hw 2%nat), (Hw 3%nat), (Hw 4%nat) by lia.
    reflexivity.
Qed.

End UnitEvaluation.

(** * Shapes through the network *)

Lemma ceil_div_1 (a : Z) : ceil_div a 1 = a.
Proof. unfold ceil_div. rewrite Z.div_1_r. lia. Qed.

Lemma strict_add_same (a : Shape) : strict_add a a = Some a.
Proof. unfold strict_add. destruct (list_eq_dec Z.eq_dec a a); congruence. Qed.

Lemma strict_add_Some (a b c : Shape) : strict_add a b = Some c -> a = b /\ c = a.
Proof.
  unfold strict_add. destruct (list_eq_dec Z.eq_dec a b); [|discriminate].
  intros [= <-]. now split.
Qed.

Lemma window_shape_same (k s : Z) (channels : option Z) (n h w c : Z) :
  0 < s ->
  window_shape "same" k s channels [n; h; w; c] =
  Some [n; ceil_div h s; ceil_div w s; option_default c channels].
Proof.
  intros Hs. unfold window_shape.
  destruct (Z.ltb_spec 0 s); [|lia].
  destruct channels; reflexivity.
Qed.

Section UnitShapes.

Variable add : Shape -> Shape -> option Shape.

(** Shapes of the two operands of the merge, for a unit constructed with
    a positive stride. *)
Lemma main_output_shape (filters stride : Z) (act : string) (k : nat)
    (n h w c : Z) :
  0 < stride ->
  run_layers (E := shape_engine add) no_weights
    (main_layers (evalState (ResUnit_init filters stride act) k)) [n; h; w; c] =
  Some [n; ceil_div h stride; ceil_div w stride; filters].
Proof.
  intros Hs. unit_built.
  cbn [run_layers]. unfold run_layer.
  cbn [cfg apply_layer shape_engine shape_apply conv_kw kernel_size padding
         strides option_default].
  rewrite window_shape_same by assumption.
  cbn [bind Monad_option option_default].
  rewrite window_shape_same by lia.
  cbn [bind ret Monad_option option_default].
  now rewrite !ceil_div_1.
Qed.

Lemma skip_output_shape (filters stride : Z) (act : string) (k : nat)
    (n h w c : Z) :
  0 < stride ->
  run_layers (E := shape_engine add) no_weights
    (skip_layers (evalState (ResUnit_init filters stride act) k)) [n; h; w; c] =
  Some (if stride >? 1
        then [n; ceil_div h stride; ceil_div w stride; filters]
        else [n; h; w; c]).
Proof.
  intros Hs. unit_built.
  destruct (stride >? 1); [|reflexivity].
  cbn [run_layers]. unfold run_layer.
  cbn [cfg apply_layer shape_engine shape_apply conv_kw kernel_size padding
         strides option_default].
  rewrite window_shape_same by assumption.
  reflexivity.
Qed.

End UnitShapes.

Lemma run_model_app {Tensor Weights : Type} {E : Engine Tensor Weights}
    (weights : nat -> Weights) (a b : list MLayer) (x : Tensor) :
  run_model weights (a ++ b) x =
  (y <- run_model weights a x ;; run_model weights b y).
Proof.
  revert x. induction a as [|l a IH]; intros x; cbn.
  - reflexivity.
  - destruct (run_mlayer weights l x); [apply IH | reflexivity].
Qed.

(** A unit given the stride the loop derives, on an input that has
    [previous_filters] channels: the two operands of the merge have one
    and the same shape. *)
Lemma call_shape_in_loop (filters previous_filters : Z) (act : string)
    (k : nat) (n h w : Z) :
  let stride := loop_strides filters previous_filters in
  call (E := shape_engine strict_add) no_weights
    (evalState (ResUnit_init filters stride act) k)
    [n; h; w; previous_filters] =
  Some [n; ceil_div h stride; ceil_div w stride; filters].
Proof.
  cbv zeta. unfold call.
  assert (Hs : 0 < loop_strides filters previous_filters)
    by (unfold loop_strides; destruct (filters =? previous_filters); lia).
  rewrite main_output_shape, skip_output_shape by assumption.
  cbn [bind Monad_option].
  assert (Hadd :
    (if loop_strides filters previous_filters >? 1
     then [n; ceil_div h (loop_strides filters previous_filters);
           ceil_div w (loop_strides filters previous_filters); filters]
     else [n; h; w; previous_filters]) =
    [n; ceil_div h (loop_strides filters previous_filters);
     ceil_div w (loop_strides filters previous_filters); filters]).
  { unfold loop_strides. destruct (Z.eqb_spec filters previous_filters).
    - subst. cbn. now rewrite !ceil_div_1.
    - reflexivity. }
  rewrite Hadd. cbn [tensor_add shape_engine]. rewrite strict_add_same.
  unit_built. reflexivity.
Qed.

Lemma last_cons_default {A : Type} (l : list A) :
  forall (x d1 d2 : A), last (x :: l) d1 = last (x :: l) d2.
Proof.
  induction l as [|y l IH]; intros x d1 d2; [reflexivity|].
  change (last (y :: l) d1 = last (y :: l) d2). apply IH.
Qed.

Lemma loop_units_shape (fc : list Z) :
  forall (previous_filters : Z) (k : nat) (n h w : Z),
    model_shape strict_add
      (map Res (fst (runState (loop_units fc previous_filters) k)))
      [n; h; w; previous_filters] =
    Some [n; size_after fc previous_filters h;
          size_after fc previous_filters w; last fc previous_filters].
Proof.
  unfold model_shape, size_after.
  induction fc as [|filters rest IH]; intros previous_filters k n h w.
  - reflexivity.
  - rewrite loop_units_cons. cbn [fst snd map run_model run_mlayer].
    rewrite <- ResUnit_init_eval, call_shape_in_loop.
    cbn [bind Monad_option]. rewrite IH.
    cbn [schedule_strides fold_left].
    destruct rest as [|filters' rest]; [reflexivity|].
    now rewrite (last_cons_default rest filters' filters previous_filters).
Qed.

(** Shape of the notebook's model on a batch of 224x224x3 inputs: the
    stem brings 224 to 56, the sixteen units bring 56 to 7 at 512
    channels, and the head leaves one row of 10 entries per input. *)
Lemma model_output_shape (N : Z) :
  model_shape strict_add model [N; 224; 224; 3] = Some [N; 10].
Proof.
  unfold model. rewrite build_eval, build_run. cbn [fst].
  unfold model_shape. rewrite !run_model_app.
  change (run_model (E := shape_engine strict_add) no_weights
            (stem_layers 0) [N; 224; 224; 3])
    with (Some [N; 56; 56; 64]).
  cbn [bind Monad_option].
  pose proof (loop_units_shape filter_configuration 64 (4 + 0) N 56 56) as Hunits.
  unfold model_shape in Hunits. rewrite run_model_app, Hunits.
  reflexivity.
Qed.

(** * A unit constructed with stride 1 and a later input of another
      channel count *)

(** C7, as stated, fails.  [ResUnit(64, strides=1)] is constructed with an
    identity skip path; on a one-channel 56x56 input the main path yields
    64 channels, the skip path yields the input itself, and the library's
    broadcasting [+] returns a 64-channel tensor instead of raising. *)
Lemma mismatch_not_rejected :
  let self := evalState (ResUnit_init 64 1 "relu") 0%nat in
  skip_layers self = [] /\
  call (E := shape_engine broadcast_add) no_weights self [1; 56; 56; 1] =
    Some [1; 56; 56; 64] /\
  ~ mismatch_rejected broadcast_add.
Proof.
  cbv zeta. split; [reflexivity|]. split; [reflexivity|].
  intros H.
  specialize (H 64 "relu" 0%nat 1 56 56 1 ltac:(discriminate)).
  discriminate H.
Qed.

(** A mismatch that does not broadcast is raised by the addition, at
    evaluation. *)
Example mismatch_raised_at_evaluation :
  call (E := shape_engine broadcast_add) no_weights
    (evalState (ResUnit_init 128 1 "relu") 0%nat) [1; 56; 56; 64] = None.
Proof. reflexivity. Qed.

(** C7, amended.  The constructor accepts every [filters] with stride 1
    and builds the identity skip path, whatever input comes later; on an
    input of [c] channels the operands of the merge then have [filters]
    and [c] channels, and what follows is up to the library's [+].  The
    builder does not create the mismatch: in the units it adds, for any
    schedule, the two operands of every merge have the same shape when
    the input of the first unit has [previous_filters] channels. *)
Theorem builder_excludes_mismatch (add : Shape -> Shape -> option Shape)
    (filters : Z) (act : string) (k : nat) (n h w c : Z)
    (fc : list Z) (previous_filters : Z) :
  let self := evalState (ResUnit_init filters 1 act) k in
  skip_layers self = [] /\
  run_layers (E := shape_engine add) no_weights (main_layers self)
    [n; h; w; c] = Some [n; h; w; filters] /\
  run_layers (E := shape_engine add) no_weights (skip_layers self)
    [n; h; w; c] = Some [n; h; w; c] /\
  model_shape strict_add (evalState (add_units fc previous_filters []) k)
    [n; h; w; previous_filters] =
  Some [n; size_after fc previous_filters h; size_after fc previous_filters w;
        last fc previous_filters].
Proof.
  cbv zeta. split; [|split; [|split]].
  - unit_built. reflexivity.
  - rewrite main_output_shape by lia. now rewrite !ceil_div_1.
  - rewrite skip_output_shape by lia. reflexivity.
  - change (evalState (add_units fc previous_filters []) k)
      with (fst (runState (add_units fc previous_filters []) k)).
    rewrite add_units_run. cbn [fst app].
    apply loop_units_shape.
Qed.

(** * Runs on the numeric engine *)

Example scalar_call :
  call (E := scalar_engine) weights_at_0
    (evalState (ResUnit_init 128 2 "relu") 0%nat) 5 = Some 94.
Proof. reflexivity. Qed.

(** The equality of two runs, on the numeric engine: a unit allocated
    from 0 and one allocated from 10, stride 2, input 5. *)
Lemma two_run_equality_witness :
  (forall k : nat,
      (k < if 2 >? 1 then 7 else 5)%nat ->
      weights_at_0 (k + 0)%nat = weights_at_10 (k + 10)%nat) /\
  call (E := scalar_engine) weights_at_0
    (evalState (ResUnit_init 128 2 "relu") 0%nat) 5 =
  call (E := scalar_engine) weights_at_10
    (evalState (ResUnit_init 128 2 "relu") 10%nat) 5.
Proof.
  assert (H : forall k : nat,
             (k < if 2 >? 1 then 7 else 5)%nat ->
             weights_at_0 (k + 0)%nat = weights_at_10 (k + 10)%nat).
  { intros k Hk. unfold weights_at_0, weights_at_10. lia. }
  split; [exact H|].
  apply (two_run_equality (E := scalar_engine) weights_at_0 weights_at_10
           128 2 "relu" 0%nat 10%nat 5 H).
Defined.

(** * The two additions compared *)

Lemma broadcast_rev_same (a : Shape) : broadcast_rev a a = Some a.
Proof.
  induction a as [|x a IH]; [reflexivity|].
  cbn. unfold broadcast_dim. rewrite Z.eqb_refl. cbn. now rewrite IH.
Qed.

(** Where the strict addition succeeds, the broadcasting one returns the
    same shape. *)
Lemma strict_add_broadcast (a b c : Shape) :
  strict_add a b = Some c -> broadcast_add a b = Some c.
Proof.
  intros H. apply strict_add_Some in H as [<- ->].
  unfold broadcast_add. rewrite broadcast_rev_same. cbn.
  now rewrite rev_involutive.
Qed.

Section AddMonotone.

Variables add1 add2 : Shape -> Shape -> option Shape.

Hypothesis add_le : forall a b c, add1 a b = Some c -> add2 a b = Some c.

Lemma call_add_monotone (u : ResUnit) (x y : Shape) :
  call (E := shape_engine add1) no_weights u x = Some y ->
  call (E := shape_engine add2) no_weights u x = Some y.
Proof.
  unfold call.
  change (run_layers (E := shape_engine add2) no_weights)
    with (run_layers (E := shape_engine add1) no_weights).
  destruct (run_layers (E := shape_engine add1) no_weights (main_layers u) x)
    as [m|]; [|discriminate].
  destruct (run_layers (E := shape_engine add1) no_weights (skip_layers u) x)
    as [s|]; [|discriminate].
  cbn [bind Monad_option tensor_add shape_engine].
  destruct (add1 m s) as [t|] eqn:Hadd; [|discriminate].
  rewrite (add_le _ _ _ Hadd). trivial.
Qed.

Lemma run_model_add_monotone (layers : list MLayer) :
  forall x y : Shape,
    model_shape add1 layers x = Some y -> model_shape add2 layers x = Some y.
Proof.
  unfold model_shape.
  induction layers as [|l layers IH]; intros x y; cbn [run_model].
  - trivial.
  - destruct (run_mlayer (E := shape_engine add1) no_weights l x) as [x'|] eqn:Hl;
      [|discriminate].
    assert (Hl2 : run_mlayer (E := shape_engine add2) no_weights l x = Some x').
    { destruct l as [k|u]; [exact Hl | now apply call_add_monotone]. }
    rewrite Hl2. cbn [bind Monad_option]. apply IH.
Qed.

End AddMonotone.

(** The same output shape under the library's broadcasting addition. *)
Lemma model_output_shape_broadcast (N : Z) :
  model_shape broadcast_add model [N; 224; 224; 3] = Some [N; 10].
Proof.
  apply (run_model_add_monotone strict_add broadcast_add strict_add_broadcast).
  apply model_output_shape.
Qed.

(** * Further properties of the builder *)

Lemma build_units (fc : list Z) (previous_filters : Z) (n : nat) :
  units (evalState (build fc previous_filters) n) =
  fst (runState (loop_units fc previous_filters) (4 + n)%nat).
Proof.
  rewrite build_eval, build_run. cbn [fst].
  rewrite !units_app, units_map_Res. cbn [units stem_layers head_layers app].
  apply app_nil_r.
Qed.

Lemma loop_units_follow_changes (fc : list Z) :
  forall (previous_filters : Z) (n : nat),
    Forall2
      (fun u fp =>
         unit_filters u = Some (fst fp) /\
         unit_strides u = Some (if fst fp =? snd fp then 1 else 2) /\
         (skip_layers u = [] <-> fst fp = snd fp) /\
         (List.length (skip_layers u) = 2%nat <-> fst fp <> snd fp))
      (fst (runState (loop_units fc previous_filters) n))
      (combine fc (previous_filters :: fc)).
Proof.
  induction fc as [|filters rest IH]; intros previous_filters n.
  - constructor.
  - rewrite loop_units_cons. cbn [fst combine]. constructor; [|apply IH].
    rewrite ResUnit_init_run. cbn [fst snd skip_layers].
    unfold unit_filters, unit_strides, loop_strides.
    cbn [main_layers cfg conv_kw strides].
    destruct (Z.eqb_spec filters previous_filters) as [Heq|Hne]; cbn.
    + repeat split; intros; try congruence; try discriminate.
    + repeat split; intros; try congruence; try discriminate.
Qed.

(** X1.  In a model built from any schedule, each unit is paired with its
    schedule entry and the entry before it (the initial
    [previous_filters] for the first): the unit has the entry's filter
    count, stride 1 and no skip path when the two are equal, stride 2 and
    a two-layer skip path when they differ. *)
Theorem units_follow_filter_changes (fc : list Z) (previous_filters : Z)
    (n : nat) :
  Forall2
    (fun u fp =>
       unit_filters u = Some (fst fp) /\
       unit_strides u = Some (if fst fp =? snd fp then 1 else 2) /\
       (skip_layers u = [] <-> fst fp = snd fp) /\
       (List.length (skip_layers u) = 2%nat <-> fst fp <> snd fp))
    (units (evalState (build fc previous_filters) n))
    (combine fc (previous_filters :: fc)).
Proof.
  rewrite build_units. apply loop_units_follow_changes.
Qed.

Lemma last_cons {A : Type} (l : list A) (x d : A) :
  last (x :: l) d = last l x.
Proof.
  destruct l as [|y l]; [reflexivity|].
  change (last (y :: l) d = last (y :: l) x). apply last_cons_default.
Qed.

(** X2.  The loop over a concatenated schedule is the loop over the first
    part followed by the loop over the second part, the latter started
    with the last filter count of the first part as [previous_filters]
    (the given [previous_filters] when the first part is empty). *)
Theorem add_units_app (fc1 fc2 : list Z) :
  forall (previous_filters : Z) (m : list MLayer) (n : nat),
    runState (add_units (fc1 ++ fc2) previous_filters m) n =
    runState
      (add_units fc2 (last fc1 previous_filters)
         (fst (runState (add_units fc1 previous_filters m) n)))
      (snd (runState (add_units fc1 previous_filters m) n)).
Proof.
  induction fc1 as [|filters rest IH]; intros previous_filters m n.
  - reflexivity.
  - rewrite last_cons. cbn [app add_units]. cbv zeta.
    rewrite !runState_bind. apply IH.
Qed.

(** ** Object identities *)

Lemma unit_init_oids (filters stride : Z) (act : string) (n : nat) :
  Permutation
    (map oid (unit_layers (fst (runState (ResUnit_init filters stride act) n))))
    (seq n (unit_objects stride)) /\
  snd (runState (ResUnit_init filters stride act) n) =
    (unit_objects stride + n)%nat.
Proof.
  rewrite ResUnit_init_run. cbn [fst snd]. split; [|reflexivity].
  unfold unit_layers, unit_objects. cbn [main_layers skip_layers].
  destruct (stride >? 1); cbn; symmetry;
    match goal with
    | |- Permutation _ (S n :: S (S n) :: n :: ?rest) =>
        apply (Permutation_middle [S n; S (S n)] rest n)
    end.
Qed.

Lemma model_layers_app (a b : list MLayer) :
  model_layers (a ++ b) = model_layers a ++ model_layers b.
Proof. apply flat_map_app. Qed.

Lemma loop_units_oids (fc : list Z) :
  forall (previous_filters : Z) (n : nat),
    Permutation
      (map oid
         (model_layers
            (map Res (fst (runState (loop_units fc previous_filters) n)))))
      (seq n (loop_objects fc previous_filters)) /\
    snd (runState (loop_units fc previous_filters) n) =
      (loop_objects fc previous_filters + n)%nat.
Proof.
  induction fc as [|filters rest IH]; intros previous_filters n.
  - split; [constructor | reflexivity].
  - rewrite loop_units_cons. cbn [fst snd map].
    destruct (unit_init_oids filters (loop_strides filters previous_filters)
                "relu" n) as [Hu Hn].
    rewrite Hn.
    destruct (IH filters
                (unit_objects (loop_strides filters previous_filters) + n)%nat)
      as [Hr Hc].
    unfold loop_objects in *. cbn [schedule_strides map].
    change (list_sum (?a :: ?l)) with (a + list_sum l)%nat.
    split.
    + change (model_layers (Res ?u :: ?l)) with (unit_layers u ++ model_layers l).
      rewrite map_app, seq_app.
      apply Permutation_app; [exact Hu|].
      rewrite (Nat.add_comm n). exact Hr.
    + rewrite Hc. lia.
Qed.

Lemma build_oids (fc : list Z) (previous_filters : Z) (n : nat) :
  Permutation
    (map oid (model_layers (evalState (build fc previous_filters) n)))
    (seq n (7 + loop_objects fc previous_filters)).
Proof.
  rewrite build_eval, build_run. cbn [fst].
  destruct (loop_units_oids fc previous_filters (4 + n)) as [Hr Hc].
  rewrite Hc, !model_layers_app, !map_app.
  replace (7 + loop_objects fc previous_filters)%nat
    with (4 + (loop_objects fc previous_filters + 3))%nat by lia.
  rewrite seq_app, seq_app.
  apply Permutation_app; [reflexivity|].
  apply Permutation_app.
  - rewrite (Nat.add_comm n 4). exact Hr.
  - replace (n + 4 + loop_objects fc previous_filters)%nat
      with (loop_objects fc previous_filters + (4 + n))%nat by lia.
    reflexivity.
Qed.

Lemma init_activation_in_main (filters stride : Z) (act : string) (n : nat) :
  nth_error (main_layers (fst (runState (ResUnit_init filters stride act) n))) 2 =
  Some (activation (fst (runState (ResUnit_init filters stride act) n))).
Proof. now rewrite ResUnit_init_run. Qed.

(** X3.  In a model built from any schedule, the layer occurrences (the
    model's own layers and the layers in the two lists of every unit) are
    pairwise distinct objects, and they are exactly the objects allocated
    by the cell, [7 + loop_objects] of them; the only object referred to
    twice is a unit's activation, which is the third entry of its own
    main path. *)
Theorem model_objects_distinct (fc : list Z) (previous_filters : Z) (n : nat) :
  let m := evalState (build fc previous_filters) n in
  Permutation (map oid (model_layers m))
    (seq n (7 + loop_objects fc previous_filters)) /\
  NoDup (map oid (model_layers m)) /\
  Forall (fun u => nth_error (main_layers u) 2 = Some (activation u)) (units m).
Proof.
  cbv zeta. split; [|split].
  - apply build_oids.
  - apply (Permutation_NoDup (Permutation_sym (build_oids fc previous_filters n))).
    apply seq_NoDup.
  - rewrite build_units.
    apply (loop_units_Forall _ init_activation_in_main).
Qed.

(** ** Convolutions and normalisation *)

Lemma unit_init_convs (filters stride : Z) (act : string) (n : nat) :
  let u := fst (runState (ResUnit_init filters stride act) n) in
  forallb conv_template (map cfg (unit_layers u)) = true /\
  conv_then_norm (map cfg (main_layers u)) = true /\
  conv_then_norm (map cfg (skip_layers u)) = true.
Proof.
  cbv zeta. rewrite ResUnit_init_run. unfold unit_layers.
  cbn [fst main_layers skip_layers].
  destruct (stride >? 1); repeat split; reflexivity.
Qed.

Lemma units_convs (us : list ResUnit) (tail : list MLayer) :
  Forall (fun u =>
            forallb conv_template (map cfg (unit_layers u)) = true /\
            conv_then_norm (map cfg (main_layers u)) = true /\
            conv_then_norm (map cfg (skip_layers u)) = true) us ->
  forallb conv_template (map cfg (model_layers (map Res us))) = true /\
  model_conv_then_norm (map Res us ++ tail) = model_conv_then_norm tail.
Proof.
  induction 1 as [|u us (Ht & Hm & Hs) _ [IHt IHn]]; [now split|].
  cbn [map app model_conv_then_norm].
  change (model_layers (Res u :: ?l)) with (unit_layers u ++ model_layers l).
  rewrite map_app, forallb_app, Ht, IHt, Hm, Hs, IHn. now split.
Qed.

(** X4.  In a model built from any schedule, every convolution (the
    stem's, and those in the main and skip paths of every unit) has no
    bias term, "same" padding and the "he_normal" initialiser, and every
    convolution is directly followed by a batch normalisation. *)
Theorem convolutions_unbiased_and_normalised (fc : list Z)
    (previous_filters : Z) (n : nat) :
  let m := evalState (build fc previous_filters) n in
  forallb conv_template (map cfg (model_layers m)) = true /\
  model_conv_then_norm m = true.
Proof.
  cbv zeta. rewrite build_eval, build_run. cbn [fst].
  destruct (units_convs
              (fst (runState (loop_units fc previous_filters) (4 + n)%nat))
              (head_layers
                 (snd (runState (loop_units fc previous_filters) (4 + n)%nat)))
              (loop_units_Forall _ unit_init_convs fc previous_filters _))
    as [Ht Hn].
  split.
  - rewrite !model_layers_app, !map_app, !forallb_app, Ht. reflexivity.
  - cbn [stem_layers app model_conv_then_norm cfg]. rewrite Hn. reflexivity.
Qed.

(** * Further properties of evaluation *)

Section ModelEvaluation.

Context {Tensor Weights : Type} {E : Engine Tensor Weights}.



(** Evaluation reads parameter values only at the identities of the
    model's own layer objects. *)
Lemma run_layers_frame (w1 w2 : nat -> Weights) (ls : list KLayer) :
  (forall i, In i (map oid ls) -> w1 i = w2 i) ->
  forall x, run_layers w1 ls x = run_layers w2 ls x.
Proof.
  induction ls as [|l ls IH]; intros Hw x; [reflexivity|].
  cbn [run_layers]. unfold run_layer.
  rewrite (Hw (oid l)) by (left; reflexivity).
  destruct (apply_layer (cfg l) (w2 (oid l)) x); [|reflexivity].
  cbn. apply IH. intros i Hi. apply Hw. now right.
Qed.

Lemma call_frame (w1 w2 : nat -> Weights) (u : ResUnit) (x : Tensor) :
  (forall i, In i (unit_oids u) -> w1 i = w2 i) ->
  call w1 u x = call w2 u x.
Proof.
  intros Hw. unfold call, unit_oids, unit_layers in *.
  rewrite (run_layers_frame w1 w2 (main_layers u)),
          (run_layers_frame w1 w2 (skip_layers u)).
  - unfold run_layer. rewrite (Hw (oid (activation u))); [reflexivity|].
    now left.
  - intros i Hi. apply Hw. right. rewrite map_app. apply in_or_app. now right.
  - intros i Hi. apply Hw. right. rewrite map_app. apply in_or_app. now left.
Qed.

Lemma run_model_frame (w1 w2 : nat -> Weights) (m : list MLayer) :
  (forall i, In i (model_oids m) -> w1 i = w2 i) ->
  forall x, run_model w1 m x = run_model w2 m x.
Proof.
  induction m as [|l m IH]; intros Hw x; [reflexivity|].
  cbn [run_model].
  assert (Hl : run_mlayer w1 l x = run_mlayer w2 l x).
  { destruct l as [k|u]; cbn [run_mlayer].
    - unfold run_layer. rewrite (Hw (oid k)); [reflexivity|]. now left.
    - apply call_frame. intros i Hi. apply Hw.
      cbn [model_oids flat_map]. apply in_or_app. now left. }
  rewrite Hl. destruct (run_mlayer w2 l x); [|reflexivity].
  cbn. apply IH. intros i Hi. apply Hw.
  cbn [model_oids flat_map]. apply in_or_app. now right.
Qed.

(** X7.  For any model, the result of evaluation depends on the parameter
    store only at the identities of the model's own layer objects:
    changing the parameter values of any other object leaves every
    output unchanged. *)
Theorem evaluation_reads_own_parameters (w1 w2 : nat -> Weights)
    (m : list MLayer) (x : Tensor) :
  (forall i, In i (model_oids m) -> w1 i = w2 i) ->
  run_model w1 m x = run_model w2 m x.
Proof.
  intros Hw. now apply run_model_frame.
Qed.

End ModelEvaluation.

(** ** Models built at different points of the allocation order *)

Lemma ResUnit_init_shift (filters stride : Z) (act : string) (k d : nat) :
  runState (ResUnit_init filters stride act) (k + d)%nat =
  (shift_unit d (fst (runState (ResUnit_init filters stride act) k)),
   (snd (runState (ResUnit_init filters stride act) k) + d)%nat).
Proof.
  rewrite !ResUnit_init_run. cbn [fst snd]. unfold shift_unit, shift_layer.
  cbn [activation main_layers skip_layers map oid cfg].
  destruct (stride >? 1); reflexivity.
Qed.

Lemma loop_units_shift (fc : list Z) :
  forall (previous_filters : Z) (k d : nat),
    runState (loop_units fc previous_filters) (k + d)%nat =
    (map (shift_unit d) (fst (runState (loop_units fc previous_filters) k)),
     (snd (runState (loop_units fc previous_filters) k) + d)%nat).
Proof.
  induction fc as [|filters rest IH]; intros previous_filters k d.
  - reflexivity.
  - rewrite !loop_units_cons, ResUnit_init_shift. cbn [fst snd].
    rewrite IH. reflexivity.
Qed.

Lemma build_shift (fc : list Z) (previous_filters : Z) (k d : nat) :
  evalState (build fc previous_filters) (k + d)%nat =
  map (shift_mlayer d) (evalState (build fc previous_filters) k).
Proof.
  rewrite !build_eval, !build_run. cbn [fst].
  change (4 + (k + d))%nat with ((4 + k) + d)%nat.
  rewrite loop_units_shift. cbn [fst snd].
  rewrite !map_app, !map_map. reflexivity.
Qed.

Section ShiftedEvaluation.

Context {Tensor Weights : Type} {E : Engine Tensor Weights}.

Variable weights : nat -> Weights.

Variable d : nat.

Lemma run_layers_shift (ls : list KLayer) :
  forall x : Tensor,
    run_layers weights (map (shift_layer d) ls) x =
    run_layers (fun i => weights (i + d)%nat) ls x.
Proof.
  induction ls as [|l ls IH]; intros x; [reflexivity|].
  cbn [map run_layers]. unfold run_layer, shift_layer at 1 2. cbn [oid cfg].
  destruct (apply_layer (cfg l) (weights (oid l + d)%nat) x); [|reflexivity].
  cbn. apply IH.
Qed.

Lemma run_model_shift (m : list MLayer) :
  forall x : Tensor,
    run_model weights (map (shift_mlayer d) m) x =
    run_model (fun i => weights (i + d)%nat) m x.
Proof.
  induction m as [|l m IH]; intros x; [reflexivity|].
  cbn [map run_model].
  assert (Hl : run_mlayer weights (shift_mlayer d l) x =
               run_mlayer (fun i => weights (i + d)%nat) l x).
  { destruct l as [k|u]; cbn [shift_mlayer run_mlayer]; [reflexivity|].
    unfold call, shift_unit. cbn [main_layers skip_layers activation].
    now rewrite !run_layers_shift. }
  rewrite Hl.
  destruct (run_mlayer (fun i => weights (i + d)%nat) l x); [|reflexivity].
  cbn. apply IH.
Qed.

End ShiftedEvaluation.

Lemma model_oids_in_layers (m : list MLayer) :
  Forall (fun u => nth_error (main_layers u) 2 = Some (activation u)) (units m) ->
  forall i, In i (model_oids m) -> In i (map oid (model_layers m)).
Proof.
  induction m as [|[k|u] m IH]; intros Hu i Hi.
  - exact Hi.
  - cbn in Hi |- *. destruct Hi as [Hi|Hi]; [now left | right; now apply IH].
  - cbn [units] in Hu. inversion Hu as [|? ? Hact Hrest]; subst.
    cbn [model_oids model_layers flat_map] in Hi |- *.
    rewrite map_app. apply in_app_or in Hi. apply in_or_app.
    destruct Hi as [Hi|Hi]; [left | right; now apply IH].
    destruct Hi as [<-|Hi]; [|exact Hi].
    unfold unit_layers. rewrite map_app. apply in_or_app. left.
    apply in_map. eapply nth_error_In. exact Hact.
Qed.

(** X8.  Two models built by the cell from the same schedule at two
    points of the allocation order (two runs of the cell), whose layer
    objects hold the same parameter values position by position, return
    the same result on the same input, for any engine. *)
Theorem model_two_run_equality {Tensor Weights : Type}
    {E : Engine Tensor Weights} (w1 w2 : nat -> Weights)
    (fc : list Z) (previous_filters : Z) (n1 n2 : nat) (x : Tensor) :
  (forall k : nat,
      (k < 7 + loop_objects fc previous_filters)%nat ->
      w1 (k + n1)%nat = w2 (k + n2)%nat) ->
  run_model w1 (evalState (build fc previous_filters) n1) x =
  run_model w2 (evalState (build fc previous_filters) n2) x.
Proof.
  intros Hw.
  change (evalState (build fc previous_filters) n1)
    with (evalState (build fc previous_filters) (0 + n1)%nat).
  change (evalState (build fc previous_filters) n2)
    with (evalState (build fc previous_filters) (0 + n2)%nat).
  rewrite !build_shift, !run_model_shift.
  apply run_model_frame. intros i Hi. apply Hw.
  apply model_oids_in_layers in Hi.
  - apply (Permutation_in _ (build_oids fc previous_filters 0)) in Hi.
    apply in_seq in Hi. lia.
  - rewrite build_units. apply (loop_units_Forall _ init_activation_in_main).
Qed.

(** * Further properties of shapes *)

Lemma broadcast_add_same (a : Shape) : broadcast_add a a = Some a.
Proof. apply strict_add_broadcast, strict_add_same. Qed.

Lemma broadcast_dim_same (x : Z) : broadcast_dim x x = Some x.
Proof. unfold broadcast_dim. now rewrite Z.eqb_refl. Qed.

Lemma broadcast_add_channels (n h w c1 c2 : Z) :
  broadcast_add [n; h; w; c1] [n; h; w; c2] =
  option_map (fun c => [n; h; w; c]) (broadcast_dim c1 c2).
Proof.
  unfold broadcast_add. cbn [rev app broadcast_rev].
  rewrite !broadcast_dim_same.
  destruct (broadcast_dim c1 c2); reflexivity.
Qed.

Lemma strict_add_channels (n h w c1 c2 : Z) :
  strict_add [n; h; w; c1] [n; h; w; c2] =
  if c2 =? c1 then Some [n; h; w; c1] else None.
Proof.
  unfold strict_add.
  destruct (list_eq_dec Z.eq_dec [n; h; w; c1] [n; h; w; c2]) as [Heq|Hne];
    destruct (Z.eqb_spec c2 c1) as [Hc|Hc]; try reflexivity.
  - injection Heq as Heq. congruence.
  - subst. congruence.
Qed.

Lemma call_shape (add : Shape -> Shape -> option Shape)
    (filters stride : Z) (act : string) (k : nat) (n h w c : Z) :
  0 < stride ->
  call (E := shape_engine add) no_weights
    (evalState (ResUnit_init filters stride act) k) [n; h; w; c] =
  add [n; ceil_div h stride; ceil_div w stride; filters]
      (if stride >? 1
       then [n; ceil_div h stride; ceil_div w stride; filters]
       else [n; h; w; c]).
Proof.
  intros Hs. unfold call.
  rewrite main_output_shape, skip_output_shape by assumption.
  cbn [bind Monad_option tensor_add shape_engine].
  destruct (add _ _) as [t|]; [|reflexivity].
  unit_built. reflexivity.
Qed.

(** X9.  A unit constructed with a stride above 1, on any 4-D input and
    whatever its channel count: the output has the spatial sizes divided
    by the stride, rounded up, and [filters] channels; the merge adds two
    operands of that one shape. *)
Theorem downsampling_unit_shape (filters stride : Z) (act : string) (k : nat)
    (n h w c : Z) :
  1 < stride ->
  call (E := shape_engine strict_add) no_weights
    (evalState (ResUnit_init filters stride act) k) [n; h; w; c] =
    Some [n; ceil_div h stride; ceil_div w stride; filters] /\
  call (E := shape_engine broadcast_add) no_weights
    (evalState (ResUnit_init filters stride act) k) [n; h; w; c] =
    Some [n; ceil_div h stride; ceil_div w stride; filters].
Proof.
  intros Hs. rewrite !call_shape by lia.
  destruct (Z.gtb_spec stride 1); [|lia].
  split; [apply strict_add_same | apply broadcast_add_same].
Qed.

Lemma downsampling_unit_shape_witness :
  1 < 2 /\
  call (E := shape_engine strict_add) no_weights
    (evalState (ResUnit_init 128 2 "relu") 0%nat) [1; 55; 56; 64] =
    Some [1; 28; 28; 128].
Proof.
  split; [lia|].
  exact (proj1 (downsampling_unit_shape 128 2 "relu" 0%nat 1 55 56 64
                  ltac:(lia))).
Defined.

(** X10.  A unit constructed with stride 1, on a 4-D input of [c]
    channels: an addition that insists on equal shapes accepts the merge
    exactly when [c = filters], and the output then has the input's
    shape; the library's broadcasting addition also accepts [c = 1]
    (output of [filters] channels) and [filters = 1] (output of [c]
    channels, not [filters]), and raises otherwise. *)
Theorem identity_unit_shape (filters : Z) (act : string) (k : nat)
    (n h w c : Z) :
  call (E := shape_engine strict_add) no_weights
    (evalState (ResUnit_init filters 1 act) k) [n; h; w; c] =
    (if c =? filters then Some [n; h; w; c] else None) /\
  call (E := shape_engine broadcast_add) no_weights
    (evalState (ResUnit_init filters 1 act) k) [n; h; w; c] =
    (if filters =? c then Some [n; h; w; c]
     else if filters =? 1 then Some [n; h; w; c]
     else if c =? 1 then Some [n; h; w; filters]
     else None).
Proof.
  rewrite !call_shape by lia. cbn [Z.gtb Z.compare Pos.compare Pos.compare_cont].
  rewrite !ceil_div_1, strict_add_channels, broadcast_add_channels.
  split.
  - destruct (Z.eqb_spec c filters); [subst|]; reflexivity.
  - unfold broadcast_dim.
    destruct (Z.eqb_spec filters c); [subst; reflexivity|].
    destruct (filters =? 1), (c =? 1); reflexivity.
Qed.

Lemma stem_shape (add : Shape -> Shape -> option Shape) (n : nat) (N : Z) :
  model_shape add (stem_layers n) [N; 224; 224; 3] = Some [N; 56; 56; 64].
Proof. reflexivity. Qed.

Lemma head_shape (add : Shape -> Shape -> option Shape) (n : nat)
    (N h w c : Z) :
  model_shape add (head_layers n) [N; h; w; c] = Some [N; 10].
Proof. reflexivity. Qed.

(** X11.  Whatever the schedule (the empty one included), when
    [previous_filters] is the stem's 64 the built model maps a batch of
    224x224x3 inputs to one row of 10 entries per input, and no merge in
    it ever adds operands of different shapes. *)
Theorem any_schedule_output_shape (fc : list Z) (n : nat) (N : Z) :
  model_shape strict_add (evalState (build fc 64) n) [N; 224; 224; 3] =
    Some [N; 10] /\
  model_shape broadcast_add (evalState (build fc 64) n) [N; 224; 224; 3] =
    Some [N; 10].
Proof.
  assert (H : model_shape strict_add (evalState (build fc 64) n)
                [N; 224; 224; 3] = Some [N; 10]).
  { rewrite build_eval, build_run. cbn [fst].
    pose proof (stem_shape strict_add n N) as Hstem.
    pose proof (loop_units_shape fc 64 (4 + n) N 56 56) as Hunits.
    unfold model_shape in *.
    rewrite run_model_app, Hstem. cbn [bind Monad_option].
    rewrite run_model_app, Hunits. cbn [bind Monad_option].
    apply (head_shape strict_add). }
  split; [exact H|].
  apply (run_model_add_monotone strict_add broadcast_add strict_add_broadcast).
  exact H.
Qed.



(** * Runs of the further statements *)


(** Parameter values that differ from [weights_at_0] only outside the
    objects of a two-unit model. *)
Lemma evaluation_reads_own_parameters_witness :
  let m := evalState (build [64; 128] 64) 0%nat in
  let w2 := fun i : nat => if (i <? 19)%nat then weights_at_0 i else 0 in
  (forall i, In i (model_oids m) -> weights_at_0 i = w2 i) /\
  run_model (E := affine_engine) weights_at_0 m 1 =
  run_model (E := affine_engine) w2 m 1.
Proof.
  cbv zeta.
  assert (H : forall i,
             In i (model_oids (evalState (build [64; 128] 64) 0%nat)) ->
             weights_at_0 i =
             (if (i <? 19)%nat then weights_at_0 i else 0)).
  { intros i Hi. vm_compute in Hi.
    repeat (destruct Hi as [<-|Hi]; [reflexivity|]). contradiction. }
  split; [exact H|].
  apply (evaluation_reads_own_parameters (E := affine_engine) weights_at_0
           (fun i : nat => if (i <? 19)%nat then weights_at_0 i else 0)
           (evalState (build [64; 128] 64) 0%nat) 1 H).
Defined.

(** Two runs of the cell on a two-entry schedule, allocated from 0 and
    from 10. *)
Lemma model_two_run_equality_witness :
  (forall k : nat,
      (k < 7 + loop_objects [64; 128]%Z 64%Z)%nat ->
      weights_at_0 (k + 0)%nat = weights_at_10 (k + 10)%nat) /\
  run_model (E := affine_engine) weights_at_0
    (evalState (build [64; 128] 64) 0%nat) 1 =
  run_model (E := affine_engine) weights_at_10
    (evalState (build [64; 128] 64) 10%nat) 1.
Proof.
  assert (H : forall k : nat,
             (k < 7 + loop_objects [64; 128]%Z 64%Z)%nat ->
             weights_at_0 (k + 0)%nat = weights_at_10 (k + 10)%nat).
  { intros k Hk. unfold weights_at_0, weights_at_10. lia. }
  split; [exact H|].
  apply (model_two_run_equality (E := affine_engine) weights_at_0
           weights_at_10 [64; 128] 64 0%nat 10%nat 1 H).
Defined.
